(** * Climb: the Flask application factory of [flask_app/app.py]

    The repository is one Python module: a factory [create_app] that builds a
    Flask instance and registers the view [index] on the rule ['/'], and an
    entry-point block that runs the instance.  Everything else the program
    does is done by the framework, so the development has three layers:

    - [Werkzeug]: URL rules and the matching of a request against a URL map;
    - [Flask]: the application object, its constructor, [add_url_rule] and
      [route], template rendering, request dispatch and [run];
    - [FlaskApp]: the module [app.py] itself, transcribed over the two
      layers.

    The framework layers follow Flask's and Werkzeug's own code paths
    ([Flask.__init__], [Flask.add_url_rule], [Map.bind_to_environ],
    [MapAdapter.match],
    [Flask.dispatch_request], [Flask.full_dispatch_request],
    [Flask.handle_user_exception], [Flask.handle_exception],
    [flask.render_template], [Flask.send_static_file], [Flask.run]), cut
    down to the fragment this application reaches. *)

From Stdlib Require Import Ascii String List DecimalString.
From stdpp Require Import base option list strings gmap.

(** * HTTP vocabulary *)

Inductive http_method :=
  GET | HEAD | POST | PUT | DELETE | OPTIONS | PATCH | TRACE | CONNECT.

#[global] Instance http_method_eq_dec : EqDecision http_method.
Proof. solve_decision. Defined.

(** What the WSGI server hands to the application.  [path] is [PATH_INFO] as
    the URL map sees it; the query string is carried separately, as in WSGI. *)
Record Request := {
  method : http_method;
  path : string;
  query_string : string;
  headers : list (string * string);
  body : string
}.

Record Response := {
  status : nat;
  mimetype : string;
  resp_headers : list (string * string);
  data : string
}.

(** Python exceptions that can travel through a request. *)
Inductive exn :=
  | NotFound
  | MethodNotAllowed (valid_methods : list http_method)
  | WebsocketMismatch
  | InternalServerError
  | TemplateNotFound (name : string)
  | TemplateError (msg : string)
  | KeyError (key : string)
  | TypeError (msg : string)
  | AssertionError (msg : string)
  | RuntimeError (msg : string).

Inductive outcome (A : Type) :=
  | Return (a : A)
  | Raise (e : exn).
Arguments Return {A} a.
Arguments Raise {A} e.

(** * Werkzeug: rules and URL matching *)

Module Werkzeug.

(** [werkzeug.routing.Rule]: the rule string, its endpoint, the methods it
    answers and the flag Flask stores on it. *)
Record Rule := {
  rule : string;
  endpoint : string;
  methods : list http_method;
  provide_automatic_options : bool
}.

Definition view_args := list (string * string).

(** [s] with the prefix [p] removed, when [s] starts with [p]. *)
Fixpoint strip_prefix (p s : string) : option string :=
  match p with
  | EmptyString => Some s
  | String c p' =>
      match s with
      | EmptyString => None
      | String d s' => if decide (c = d) then strip_prefix p' s' else None
      end
  end.

(** Splits [s] at its first [">"]. *)
Fixpoint until_close (s : string) : option (string * string) :=
  match s with
  | EmptyString => None
  | String c s' =>
      if decide (c = ">"%char) then Some (EmptyString, s')
      else match until_close s' with
           | Some (name, rest) => Some (String c name, rest)
           | None => None
           end
  end.

(** The [path] converter matches the regular expression [[^/].*?]: a
    non-empty text that does not start with a slash. *)
Definition path_converter (s : string) : bool :=
  match s with
  | EmptyString => false
  | String c _ => negb (bool_decide (c = "/"%char))
  end.

(** Matching of a path against a rule string.  The rule syntax covered is
    literal text, optionally closed by one [<path:NAME>] variable: the two
    shapes this application's URL map holds ['/'] and
    ['/static/<path:filename>'].  Any other variable syntax matches
    nothing. *)
Fixpoint rule_match (r p : string) : option view_args :=
  match r with
  | EmptyString =>
      match p with EmptyString => Some [] | _ => None end
  | String c r' =>
      if decide (c = "<"%char) then
        match strip_prefix "path:" r' with
        | Some v =>
            match until_close v with
            | Some (name, EmptyString) =>
                if path_converter p then Some [(name, p)] else None
            | _ => None
            end
        | None => None
        end
      else
        match p with
        | EmptyString => None
        | String d p' => if decide (c = d) then rule_match r' p' else None
        end
  end.

(** ** Request headers, as the WSGI environment holds them *)

(** [str.lower] on the letters A to Z.  (Header values reach the
    application decoded as Latin-1; lowering the other letters never yields
    an ASCII character, so the comparisons below are not affected.) *)
Definition lower_char (c : ascii) : ascii :=
  let n := nat_of_ascii c in
  if (65 <=? n) && (n <=? 90) then ascii_of_nat (n + 32) else c.

Fixpoint lower (s : string) : string :=
  match s with
  | EmptyString => EmptyString
  | String c s' => String (lower_char c) (lower s')
  end.

(** The characters [str.strip] removes: tab to carriage return, the
    separators 28 to 31, space, and the Latin-1 characters 133 and 160. *)
Definition is_space (c : ascii) : bool :=
  let n := nat_of_ascii c in
  ((9 <=? n) && (n <=? 13)) || ((28 <=? n) && (n <=? 32))
  || (n =? 133) || (n =? 160).

Fixpoint lstrip (s : string) : string :=
  match s with
  | EmptyString => EmptyString
  | String c s' => if is_space c then lstrip s' else s
  end.

Fixpoint rstrip (s : string) : string :=
  match s with
  | EmptyString => EmptyString
  | String c s' =>
      match rstrip s' with
      | EmptyString => if is_space c then EmptyString else String c EmptyString
      | t => String c t
      end
  end.

Definition strip (s : string) : string := rstrip (lstrip s).

(** [s.split(sep)]: the pieces between the separators, at least one. *)
Fixpoint split_on (sep : ascii) (s : string) : list string :=
  match s with
  | EmptyString => [EmptyString]
  | String c s' =>
      let pieces := split_on sep s' in
      if decide (c = sep) then EmptyString :: pieces
      else match pieces with
           | x :: xs => String c x :: xs
           | [] => [String c EmptyString]
           end
  end.

(** The value the WSGI environment holds for a header ([environ.get] on its
    [HTTP_] key, with the empty string as default): header names are
    matched without regard to case, the values of a repeated header are
    joined by commas, and a header that is absent reads as the empty
    string.  [name] is given in lower case. *)
Definition environ_get (name : string) (hs : list (string * string))
    : string :=
  String.concat ","
    (map snd (List.filter (fun kv => String.eqb (lower (fst kv)) name) hs)).

(** [Map.bind_to_environ] binds a request as a WebSocket request when its
    [Connection] header lists [upgrade] and its [Upgrade] header is
    [websocket]. *)
Definition is_websocket (req : Request) : bool :=
  existsb (fun v => String.eqb (strip v) "upgrade")
    (split_on "," (lower (environ_get "connection" (headers req))))
  && String.eqb (lower (environ_get "upgrade" (headers req))) "websocket".

(** [MapAdapter.match]: the first rule that matches path, method and kind of
    request wins.  A rule whose path matches but whose methods do not adds
    its methods to [have_match_for]; a rule whose path and methods match
    while the request is a WebSocket request sets [websocket_mismatch] (the
    rules here are ordinary rules: [add_url_rule] is never given the
    [websocket] option).  When the rules are used up the answer is
    [MethodNotAllowed] if methods were seen, else [WebsocketMismatch] if
    that was noted, else [NotFound]. *)
Fixpoint match_rules (rules : list Rule) (p : string) (m : http_method)
    (websocket : bool) (have_match_for : list http_method)
    (websocket_mismatch : bool) : outcome (Rule * view_args) :=
  match rules with
  | [] =>
      match have_match_for with
      | [] =>
          if websocket_mismatch then Raise WebsocketMismatch
          else Raise NotFound
      | _ => Raise (MethodNotAllowed have_match_for)
      end
  | r :: rules' =>
      match rule_match (rule r) p with
      | Some args =>
          if negb (bool_decide (m ∈ methods r)) then
            match_rules rules' p m websocket (have_match_for ++ methods r)
              websocket_mismatch
          else if websocket then
            match_rules rules' p m websocket have_match_for true
          else Return (r, args)
      | None =>
          match_rules rules' p m websocket have_match_for websocket_mismatch
      end
  end.

Definition match_request (url_map : list Rule) (req : Request)
    : outcome (Rule * view_args) :=
  match_rules url_map (path req) (method req) (is_websocket req) [] false.

(** [MapAdapter.allowed_methods]: the methods of every rule that matches
    the path. *)
Definition allowed_methods (url_map : list Rule) (p : string)
    : list http_method :=
  flat_map (fun r => match rule_match (rule r) p with
                     | Some _ => methods r
                     | None => []
                     end) url_map.

(** Does [s] contain two slashes in a row? *)
Fixpoint has_double_slash (s : string) : bool :=
  match s with
  | String c ((String d _) as s') =>
      (bool_decide (c = "/"%char) && bool_decide (d = "/"%char))
      || has_double_slash s'
  | _ => false
  end.

(** A path in the form rules are written against: it starts with a slash
    and has no empty segment.  Werkzeug rewrites other paths before or
    while matching (leading slashes are stripped, repeated slashes are
    merged and answered with a redirect); that normalisation is outside
    this model, so statements about unmatched paths are made for normal
    paths. *)
Definition normal_path (p : string) : bool :=
  match p with
  | String c _ => bool_decide (c = "/"%char) && negb (has_double_slash p)
  | EmptyString => false
  end.

End Werkzeug.

(** * Flask: the application object and request dispatch *)

Module Flask.
Import Werkzeug.

(** ** The world outside the process

    The files the application reads and the template engine.  The Jinja
    environment caches the templates it has loaded, and an environment that
    does not reload (debug off) goes on using a cached template after the
    file has changed or gone.  The cache is not modelled: [render_template]
    reads the world afresh, which is what the real code does as long as the
    files stay as they are.  Statements about what a template yields are
    therefore made for instances whose earlier requests were served in the
    same world ([reachable_in] below). *)

Record File := { file_mimetype : string; file_data : string }.

(** The variables a template is rendered with.  Next to the keyword
    arguments of [render_template], Flask's default context processor
    injects the current [request] (and the [session] and [g] derived from
    it) into every template context. *)
Record Context := {
  ctx_request : Request;
  ctx_vars : list (string * string)
}.

Record World := {
  (** the template loader: folder, template name, template source *)
  template_source : string -> string -> option string;
  (** [Template.render]: source, context, output or the error raised *)
  jinja_render : string -> Context -> outcome string;
  (** a regular file under a folder, with its guessed MIME type *)
  static_file : string -> string -> option File
}.

(** ** Views *)

(** What a view finds in [flask.globals]: the parts of [current_app] the
    views of this application consult, and [request]. *)
Record ReqCtx := {
  rc_static_folder : option string;
  rc_template_folder : option string;
  rc_request : Request
}.

(** A view returns a string, which becomes the body of a response, or a
    response object. *)
Inductive view_rv :=
  | RvStr (s : string)
  | RvResponse (r : Response).

(** A view function, called with the view arguments as keyword arguments,
    inside a request context. *)
Definition View : Type := ReqCtx -> view_args -> World -> outcome view_rv.

(** [flask.render_template(name, context...)] *)
Definition render_template (rc : ReqCtx) (w : World) (name : string)
    (context : list (string * string)) : outcome string :=
  match rc_template_folder rc with
  | None => Raise (TemplateNotFound name)
  | Some folder =>
      match template_source w folder name with
      | None => Raise (TemplateNotFound name)
      | Some src =>
          jinja_render w src
            {| ctx_request := rc_request rc; ctx_vars := context |}
      end
  end.

(** The request headers that make [send_file] answer with something other
    than the whole file: a range, or a condition on the entity tag or the
    modification time. *)
Definition conditional_headers : list string :=
  ["range"; "if-range"; "if-none-match"; "if-modified-since"; "if-match";
   "if-unmodified-since"].

Definition is_conditional (req : Request) : bool :=
  existsb (fun kv => bool_decide (lower (fst kv) ∈ conditional_headers))
    (headers req).

(** [Flask.send_static_file(filename)], through [send_from_directory].
    Conditional and range requests (304, 206, 412, 416) are left out: the
    response given is the one to a request that is not [is_conditional]. *)
Definition send_static_file (rc : ReqCtx) (w : World) (filename : string)
    : outcome Response :=
  match rc_static_folder rc with
  | None => Raise (RuntimeError "'static_folder' must be set to serve static_files.")
  | Some folder =>
      match static_file w folder filename with
      | None => Raise NotFound
      | Some f =>
          Return {| status := 200; mimetype := file_mimetype f;
                    resp_headers := []; data := file_data f |}
      end
  end.

(** The view the constructor registers under the endpoint ['static']:
    a lambda that hands its keyword arguments to [send_static_file]. *)
Definition static_view : View := fun rc args w =>
  match args with
  | [(k, filename)] =>
      if decide (k = "filename") then
        match send_static_file rc w filename with
        | Return r => Return (RvResponse r)
        | Raise e => Raise e
        end
      else Raise (TypeError "send_static_file() got an unexpected keyword argument")
  | _ => Raise (TypeError "send_static_file() missing or unexpected arguments")
  end.

(** ** The application object *)

(** The attributes of a [Flask] object that construction, routing and
    dispatch use.  [static_folder] is the name as stored (the attribute
    [_static_folder]); Flask resolves it against the application's root
    path when files are looked up. *)
Record App := {
  import_name : string;
  static_folder : option string;
  template_folder : option string;
  url_map : list Rule;
  view_functions : gmap string View;
  debug : bool;
  testing : bool;
  got_first_request : bool
}.

Definition set_url_map (m : list Rule) (a : App) : App :=
  {| import_name := import_name a; static_folder := static_folder a;
     template_folder := template_folder a; url_map := m;
     view_functions := view_functions a; debug := debug a;
     testing := testing a; got_first_request := got_first_request a |}.

Definition set_view_functions (v : gmap string View) (a : App) : App :=
  {| import_name := import_name a; static_folder := static_folder a;
     template_folder := template_folder a; url_map := url_map a;
     view_functions := v; debug := debug a;
     testing := testing a; got_first_request := got_first_request a |}.

Definition set_debug (d : bool) (a : App) : App :=
  {| import_name := import_name a; static_folder := static_folder a;
     template_folder := template_folder a; url_map := url_map a;
     view_functions := view_functions a; debug := d;
     testing := testing a; got_first_request := got_first_request a |}.

Definition set_got_first_request (a : App) : App :=
  {| import_name := import_name a; static_folder := static_folder a;
     template_folder := template_folder a; url_map := url_map a;
     view_functions := view_functions a; debug := debug a;
     testing := testing a; got_first_request := true |}.

Fixpoint contains_slash (s : string) : bool :=
  match s with
  | EmptyString => false
  | String c s' => bool_decide (c = "/"%char) || contains_slash s'
  end.

(** [os.path.basename]: what follows the last slash. *)
Fixpoint basename (s : string) : string :=
  match s with
  | EmptyString => EmptyString
  | String c s' =>
      if bool_decide (c = "/"%char) || contains_slash s' then basename s'
      else s
  end.

(** The [static_url_path] property when none was given:
    [f"/{basename}".rstrip("/")] of the static folder. *)
Definition static_url_path (folder : string) : string :=
  match basename folder with
  | EmptyString => EmptyString
  | b => "/" +:+ b
  end.

(** [Flask.add_url_rule(rule, endpoint, view_func)] with no [methods]
    option: the rule answers GET, to which Werkzeug adds HEAD and Flask the
    automatic OPTIONS.  It is a setup method: it refuses to run once the
    application has handled a request.  The rule enters the URL map first;
    binding an endpoint that already has a view function then raises.
    (Flask lets the very same function object be bound again; a function
    defined inside the factory is a new object on every call.) *)
Definition add_url_rule (rule endpoint : string) (view_func : View)
    (a : App) : App * outcome unit :=
  if got_first_request a then
    (a, Raise (AssertionError "The setup method 'add_url_rule' can no longer be called on the application."))
  else
    let r := {| rule := rule; endpoint := endpoint;
                methods := [GET; HEAD; OPTIONS];
                provide_automatic_options := true |} in
    let a' := set_url_map (url_map a ++ [r]) a in
    match view_functions a' !! endpoint with
    | Some _ =>
        (a', Raise (AssertionError "View function mapping is overwriting an existing endpoint function"))
    | None =>
        (set_view_functions (<[endpoint := view_func]> (view_functions a'))
           a',
         Return tt)
    end.

(** [Flask.__init__(import_name, static_folder=..., template_folder=...)]:
    a fresh object with an empty URL map; when a static folder is given the
    constructor itself registers the rule that serves it.  [debug] starts
    from the environment's [FLASK_DEBUG], taken as unset. *)
Definition Flask_init (import_name : string)
    (static_folder template_folder : option string) : App :=
  let a := {| import_name := import_name; static_folder := static_folder;
              template_folder := template_folder; url_map := [];
              view_functions := ∅; debug := false; testing := false;
              got_first_request := false |} in
  match static_folder with
  | Some folder =>
      fst (add_url_rule (static_url_path folder +:+ "/<path:filename>")
             "static" static_view a)
  | None => a
  end.

(** ** Responses *)

Definition method_name (m : http_method) : string :=
  match m with
  | GET => "GET" | HEAD => "HEAD" | POST => "POST" | PUT => "PUT"
  | DELETE => "DELETE" | OPTIONS => "OPTIONS" | PATCH => "PATCH"
  | TRACE => "TRACE" | CONNECT => "CONNECT"
  end.

Definition allow_header (ms : list http_method) : string * string :=
  ("Allow", String.concat ", " (map method_name ms)).

(** The [Content-Type] header of a response: text types carry the
    charset. *)
Definition content_type (r : Response) : string :=
  match strip_prefix "text/" (mimetype r) with
  | Some _ => mimetype r +:+ "; charset=utf-8"
  | None => mimetype r
  end.

Definition newline : string := String (ascii_of_nat 10) EmptyString.

Definition decimal (n : nat) : string :=
  NilEmpty.string_of_uint (Nat.to_uint n).

(** [HTTPException.get_body]: the page of an HTTP exception. *)
Definition error_page (code : nat) (name description : string) : string :=
  "<!doctype html>" +:+ newline +:+
  "<html lang=en>" +:+ newline +:+
  "<title>" +:+ decimal code +:+ " " +:+ name +:+ "</title>" +:+ newline +:+
  "<h1>" +:+ name +:+ "</h1>" +:+ newline +:+
  "<p>" +:+ description +:+ "</p>" +:+ newline.

(** The response of an HTTP exception. *)
Definition http_error (code : nat) (name description : string)
    (hdrs : list (string * string)) : Response :=
  {| status := code; mimetype := "text/html"; resp_headers := hdrs;
     data := error_page code name description |}.

Definition bad_request : Response :=
  http_error 400 "Bad Request"
    "The browser (or proxy) sent a request that this server could not understand."
    [].

Definition not_found : Response :=
  http_error 404 "Not Found"
    "The requested URL was not found on the server. If you entered the URL manually please check your spelling and try again."
    [].

Definition method_not_allowed (ms : list http_method) : Response :=
  http_error 405 "Method Not Allowed"
    "The method is not allowed for the requested URL." [allow_header ms].

Definition internal_server_error : Response :=
  http_error 500 "Internal Server Error"
    "The server encountered an internal error and was unable to complete your request. Either the server is overloaded or there is an error in the application."
    [].

(** [HTTPException.get_response]; [None] for exceptions that are not HTTP
    exceptions.  [WebsocketMismatch] is a [BadRequest]. *)
Definition get_response (e : exn) : option Response :=
  match e with
  | NotFound => Some not_found
  | MethodNotAllowed ms => Some (method_not_allowed ms)
  | WebsocketMismatch => Some bad_request
  | InternalServerError => Some internal_server_error
  | _ => None
  end.

(** [Flask.make_response]: a string becomes the body of a 200 response of
    the default MIME type, [text/html]. *)
Definition make_response (rv : view_rv) : Response :=
  match rv with
  | RvStr s =>
      {| status := 200; mimetype := "text/html"; resp_headers := [];
         data := s |}
  | RvResponse r => r
  end.

Definition make_default_options_response (a : App) (req : Request)
    : Response :=
  {| status := 200; mimetype := "text/html";
     resp_headers := [allow_header (allowed_methods (url_map a) (path req))];
     data := "" |}.

(** ** Dispatch *)

Definition request_context (a : App) (req : Request) : ReqCtx :=
  {| rc_static_folder := static_folder a;
     rc_template_folder := template_folder a;
     rc_request := req |}.

(** [Flask.dispatch_request] *)
Definition dispatch_request (a : App) (w : World) (req : Request)
    : outcome view_rv :=
  match match_request (url_map a) req with
  | Raise e => Raise e
  | Return (r, args) =>
      if provide_automatic_options r && bool_decide (method req = OPTIONS)
      then Return (RvResponse (make_default_options_response a req))
      else
        match view_functions a !! endpoint r with
        | None => Raise (KeyError (endpoint r))
        | Some view => view (request_context a req) args w
        end
  end.

(** [Flask.handle_user_exception]: no error handler is registered, so an
    HTTP exception becomes its own response and anything else is raised
    again. *)
Definition handle_user_exception (e : exn) : outcome Response :=
  match get_response e with
  | Some r => Return r
  | None => Raise e
  end.

(** [Flask.full_dispatch_request] *)
Definition full_dispatch_request (a : App) (w : World) (req : Request)
    : outcome Response :=
  match dispatch_request a w req with
  | Return rv => Return (make_response rv)
  | Raise e => handle_user_exception e
  end.

(** [Flask.handle_exception]: with [PROPAGATE_EXCEPTIONS] unset the
    exception is raised again in testing and debug mode, and is turned
    into the internal-server-error response otherwise. *)
Definition handle_exception (a : App) (e : exn) : outcome Response :=
  if testing a || debug a then Raise e
  else Return internal_server_error.

(** A response to HEAD goes out without its body. *)
Definition for_method (req : Request) (r : Response) : Response :=
  if bool_decide (method req = HEAD)
  then {| status := status r; mimetype := mimetype r;
          resp_headers := resp_headers r; data := "" |}
  else r.

(** [Flask.wsgi_app], as a function of the application object. *)
Definition wsgi_app (a : App) (w : World) (req : Request)
    : outcome Response :=
  match full_dispatch_request a w req with
  | Return r => Return (for_method req r)
  | Raise e =>
      match handle_exception a e with
      | Return r => Return (for_method req r)
      | Raise e' => Raise e'
      end
  end.

(** ** Objects, references and the interpreter state *)

(** The store of application objects; a reference is the position at which
    the object was allocated. *)
Abbreviation pyref := nat (only parsing).
Abbreviation Heap := (list App) (only parsing).

(** Python code running against the store: it returns or raises, and
    leaves a store behind. *)
Definition Py (A : Type) : Type := Heap -> outcome A * Heap.

#[global] Instance Py_ret : MRet Py := fun A a h => (Return a, h).
#[global] Instance Py_bind : MBind Py := fun A B k c h =>
  match c h with
  | (Return a, h') => k a h'
  | (Raise e, h') => (Raise e, h')
  end.

(** [Flask(import_name, static_folder=..., template_folder=...)] *)
Definition Flask (import_name : string)
    (static_folder template_folder : option string) : Py pyref :=
  fun h =>
    (Return (length h),
     h ++ [Flask_init import_name static_folder template_folder]).

(** The decorator [@app.route(rule)] applied to the function [f] named
    [name]: [add_url_rule(rule, name, f)] on the object [app] refers to;
    the decorated function is returned unchanged. *)
Definition route (app : pyref) (rule name : string) (f : View) : Py View :=
  fun h =>
    match h !! app with
    | None => (Raise (RuntimeError "dangling reference"), h)
    | Some a =>
        match add_url_rule rule name f a with
        | (a', Return _) => (Return f, <[app := a']> h)
        | (a', Raise e) => (Raise e, <[app := a']> h)
        end
    end.

(** What [run_simple] is started with. *)
Record Server := {
  srv_app : pyref;
  srv_host : string;
  srv_port : nat;
  use_reloader : bool;
  use_debugger : bool;
  threaded : bool
}.

(** [app.run(host=None, port=None, debug=None)]: a given [debug] is stored
    on the application first; reloader and debugger default to it; then
    the development server is started.  (The process is taken to be started
    by the interpreter, not by the [flask] command, under which [run]
    returns at once.) *)
Definition run (app : pyref) (host : option string) (port : option nat)
    (dbg : option bool) : Py Server :=
  fun h =>
    match h !! app with
    | None => (Raise (RuntimeError "dangling reference"), h)
    | Some a =>
        let a' := match dbg with Some d => set_debug d a | None => a end in
        (Return {| srv_app := app;
                   srv_host := default "127.0.0.1" host;
                   srv_port := default 5000 port;
                   use_reloader := debug a';
                   use_debugger := debug a';
                   threaded := true |},
         <[app := a']> h)
    end.

(** The page the server produces itself when the application lets an
    exception escape; it goes out as 500.  Without the debugger it is the
    internal-server-error page.  The debugger's interactive traceback page
    is not reproduced: the first line of the traceback stands for it. *)
Definition server_error (srv : Server) (e : exn) : Response :=
  if use_debugger srv
  then {| status := 500; mimetype := "text/html"; resp_headers := [];
          data := "Traceback (most recent call last):" |}
  else internal_server_error.

(** One request through the server: the application is called, the first
    dispatch is noted on the object, and the client gets the response.  The
    pages the debugger serves by itself (its console and what it answers to
    [__debugger__] queries) are not part of the model. *)
Definition serve_request (srv : Server) (w : World) (req : Request)
    : Heap -> Response * Heap :=
  fun h =>
    match h !! srv_app srv with
    | None =>
        (server_error srv (RuntimeError "dangling reference"), h)
    | Some a =>
        let a' := set_got_first_request a in
        (match wsgi_app a' w req with
         | Return r => r
         | Raise e => server_error srv e
         end,
         <[srv_app srv := a']> h)
    end.

(** The server process: its start parameters and the store. *)
Record Process := { proc_server : Server; proc_heap : Heap }.

Definition step (w : World) (p : Process) (req : Request)
    : Response * Process :=
  let (r, h') := serve_request (proc_server p) w req (proc_heap p) in
  (r, {| proc_server := proc_server p; proc_heap := h' |}).

(** The requests of a session, served in order. *)
Fixpoint serve (w : World) (p : Process) (reqs : list Request)
    : list Response * Process :=
  match reqs with
  | [] => ([], p)
  | req :: reqs' =>
      let (r, p') := step w p req in
      let (rs, p'') := serve w p' reqs' in
      (r :: rs, p'')
  end.

(** The configuration of an application object: what the constructor and
    [add_url_rule] set up. *)
Record Config := {
  cfg_static_folder : option string;
  cfg_template_folder : option string;
  cfg_url_map : list Rule;
  cfg_view_functions : gmap string View
}.

Definition config_of (a : App) : Config :=
  {| cfg_static_folder := static_folder a;
     cfg_template_folder := template_folder a;
     cfg_url_map := url_map a;
     cfg_view_functions := view_functions a |}.

End Flask.

(** * The module [flask_app/app.py] *)

Module FlaskApp.
Import Werkzeug Flask.

Section Module_.

(** The module global [__name__]. *)
Variable __name__ : string.

(** The view defined inside [create_app]; it takes no argument. *)
Definition index : View := fun rc args w =>
  match args with
  | [] =>
      match render_template rc w "index.html" [] with
      | Return html => Return (RvStr html)
      | Raise e => Raise e
      end
  | _ => Raise (TypeError "index() got an unexpected keyword argument")
  end.

Definition create_app : Py pyref :=
  app ← Flask __name__ (Some "static") (Some "templates");
  _ ← route app "/" "index" index;
  mret app.

(** The module body after the definitions: the block guarded by
    [if __name__ == '__main__'].  The result is the server the process
    goes on to run, if any. *)
Definition main : Py (option Server) :=
  if decide (__name__ = "__main__") then
    app ← create_app;
    srv ← run app (Some "0.0.0.0") (Some 5000) (Some true);
    mret (Some srv)
  else mret None.

End Module_.

End FlaskApp.

(** * What the factory builds *)

Module Facts.
Import Werkzeug Flask FlaskApp.

(** The rule the constructor adds for the static folder. *)
Definition static_rule : Rule :=
  {| rule := "/static/<path:filename>"; endpoint := "static";
     methods := [GET; HEAD; OPTIONS]; provide_automatic_options := true |}.

(** The rule [create_app] registers for [index]. *)
Definition index_rule : Rule :=
  {| rule := "/"; endpoint := "index";
     methods := [GET; HEAD; OPTIONS]; provide_automatic_options := true |}.

(** The object [create_app] leaves in the store. *)
Definition instance (name : string) : App :=
  {| import_name := name;
     static_folder := Some "static";
     template_folder := Some "templates";
     url_map := [static_rule; index_rule];
     view_functions := <["index" := index]> (<["static" := static_view]> ∅);
     debug := false; testing := false; got_first_request := false |}.

(** The states of the store in which an instance can be found: as
    [create_app] returned it, after [run] was called on it, and after the
    server that hosts it answered a request. *)
Inductive reachable (l : pyref) : Heap -> Prop :=
  | reachable_created name h0 h :
      create_app name h0 = (Return l, h) -> reachable l h
  | reachable_run host port dbg srv h h' :
      reachable l h -> run l host port dbg h = (Return srv, h') ->
      reachable l h'
  | reachable_served srv w req resp h h' :
      reachable l h -> srv_app srv = l ->
      serve_request srv w req h = (resp, h') -> reachable l h'.

(** The same states, reached with the files unchanged since the instance was
    created: every request so far was served in the world [w]. *)
Inductive reachable_in (w : World) (l : pyref) : Heap -> Prop :=
  | reachable_in_created name h0 h :
      create_app name h0 = (Return l, h) -> reachable_in w l h
  | reachable_in_run host port dbg srv h h' :
      reachable_in w l h -> run l host port dbg h = (Return srv, h') ->
      reachable_in w l h'
  | reachable_in_served srv req resp h h' :
      reachable_in w l h -> srv_app srv = l ->
      serve_request srv w req h = (resp, h') -> reachable_in w l h'.

(** ** Worlds used in the examples *)

(** An engine for templates that are literal text, plus the one expression
    [{{ request.full_path }}], which Jinja evaluates on the request Flask
    put into the context: the path, a question mark, the query string. *)
Definition render_demo (src : string) (ctx : Context) : outcome string :=
  if decide (src = "{{ request.full_path }}")
  then Return (path (ctx_request ctx) +:+ "?"
               +:+ query_string (ctx_request ctx))
  else Return src.

(** A checkout of the game: the page and one stylesheet. *)
Definition game_world : World :=
  {| template_source := fun folder name =>
       if decide (folder = "templates" ∧ name = "index.html")
       then Some "<h1>Climb</h1>" else None;
     jinja_render := render_demo;
     static_file := fun folder name =>
       if decide (folder = "static" ∧ name = "style.css")
       then Some {| file_mimetype := "text/css"; file_data := "body{}" |}
       else None |}.

(** The same with an empty [index.html]. *)
Definition blank_page_world : World :=
  {| template_source := fun folder name =>
       if decide (folder = "templates" ∧ name = "index.html")
       then Some "" else None;
     jinja_render := render_demo;
     static_file := fun _ _ => None |}.

(** The same with an [index.html] that shows the requested URL. *)
Definition echo_world : World :=
  {| template_source := fun folder name =>
       if decide (folder = "templates" ∧ name = "index.html")
       then Some "{{ request.full_path }}" else None;
     jinja_render := render_demo;
     static_file := fun _ _ => None |}.

(** The same with an [index.html] the engine cannot render. *)
Definition broken_page_world : World :=
  {| template_source := fun folder name =>
       if decide (folder = "templates" ∧ name = "index.html")
       then Some "{% if %}" else None;
     jinja_render := fun _ _ =>
       Raise (TemplateError "Expected an expression, got 'end of statement block'");
     static_file := fun _ _ => None |}.

(** No template folder content at all. *)
Definition bare_world : World :=
  {| template_source := fun _ _ => None;
     jinja_render := render_demo;
     static_file := fun _ _ => None |}.

Definition get (p q : string) : Request :=
  {| method := GET; path := p; query_string := q; headers := [];
     body := "" |}.

(** The opening request of a WebSocket handshake on the path [p]. *)
Definition upgrade_request (p : string) : Request :=
  {| method := GET; path := p; query_string := "";
     headers := [("Host", "localhost:5000"); ("Connection", "Upgrade");
                 ("Upgrade", "websocket")];
     body := "" |}.

(** A server for the object at [l], as [run] with [debug=True] sets it
    up. *)
Definition dev_server (l : pyref) : Server :=
  {| srv_app := l; srv_host := "0.0.0.0"; srv_port := 5000;
     use_reloader := true; use_debugger := true; threaded := true |}.

End Facts.

(** * Properties *)

Import Werkzeug Flask FlaskApp Facts.

(** ** Routing *)

Example rule_match_root_path : rule_match "/" "/" = Some [].
Proof. reflexivity. Qed.

Example rule_match_static_file :
  rule_match "/static/<path:filename>" "/static/css/main.css"
  = Some [("filename", "css/main.css")].
Proof. reflexivity. Qed.

Example rule_match_static_dir :
  rule_match "/static/<path:filename>" "/static/" = None.
Proof. reflexivity. Qed.

Example static_url_path_default : static_url_path "static" = "/static".
Proof. reflexivity. Qed.

Example head_on_root :
  (serve_request (dev_server 0) game_world
     {| method := HEAD; path := "/"; query_string := ""; headers := [];
        body := "" |}
     (create_app "__main__" []).2).1
  = {| status := 200; mimetype := "text/html"; resp_headers := [];
       data := "" |}.
Proof. vm_compute. reflexivity. Qed.

Example post_on_root :
  status (serve_request (dev_server 0) game_world
            {| method := POST; path := "/"; query_string := "";
               headers := []; body := "" |}
            (create_app "__main__" []).2).1 = 405.
Proof. vm_compute. reflexivity. Qed.

Example upgrade_on_root :
  (serve_request (dev_server 0) game_world (upgrade_request "/")
     (create_app "__main__" []).2).1 = bad_request.
Proof. vm_compute. reflexivity. Qed.

Example upgrade_header_spelling :
  is_websocket
    {| method := GET; path := "/"; query_string := "";
       headers := [("connection", "keep-alive,  UPGRADE ");
                   ("UPGRADE", "WebSocket")];
       body := "" |} = true.
Proof. reflexivity. Qed.

Example not_found_page_length : String.length (data not_found) = 207.
Proof. reflexivity. Qed.

Example missing_static_file :
  status (serve_request (dev_server 0) game_world
            (get "/static/nope.css" "") (create_app "__main__" []).2).1 = 404.
Proof. vm_compute. reflexivity. Qed.

Lemma strip_prefix_Some p s r :
  strip_prefix p s = Some r <-> s = p +:+ r.
Proof.
  revert s. induction p as [|c p IH]; intros s; simpl.
  - split; [intros [= ->] | intros ->]; reflexivity.
  - destruct s as [|d s]; [split; discriminate|].
    destruct (decide (c = d)) as [->|Hne].
    + rewrite IH. split; [intros ->; reflexivity | intros [= ->]; reflexivity].
    + split; [discriminate | intros [= Hcd _]; congruence].
Qed.

(** What [rule_match] accepts for the rule ['/']. *)
Lemma rule_match_root p args :
  rule_match "/" p = Some args <-> p = "/" /\ args = [].
Proof.
  simpl. destruct p as [|c p]; [split; [discriminate | intros [[=] _]]|].
  destruct (decide ("/"%char = c)) as [<-|Hne].
  - destruct p; split; try discriminate.
    + intros [= <-]; auto.
    + intros [_ ->]; reflexivity.
    + intros [[=] _].
  - split; [discriminate | intros [[= Hc _] _]; congruence].
Qed.

(** The static rule matches nothing outside [/static/]. *)
Lemma rule_match_static_outside p :
  (forall f, p <> "/static/" +:+ f) ->
  rule_match "/static/<path:filename>" p = None.
Proof.
  intros Hout.
  destruct (rule_match "/static/<path:filename>" p) as [args|] eqn:E;
    [exfalso | reflexivity].
  simpl in E.
  repeat match type of E with
  | match ?s with EmptyString => _ | String _ _ => _ end = _ =>
      destruct s; [discriminate|]
  | (if decide (?a = ?b) then _ else _) = _ =>
      destruct (decide (a = b)); [subst|discriminate]
  end.
  eapply Hout. reflexivity.
Qed.

(** Under [/static/] it binds [filename] to the rest of the path. *)
Lemma rule_match_static_inside f :
  path_converter f = true ->
  rule_match "/static/<path:filename>" ("/static/" +:+ f)
  = Some [("filename", f)].
Proof.
  intros Hf. destruct f as [|c f]; [discriminate|].
  simpl in *. rewrite Hf. reflexivity.
Qed.

(** ** The factory *)

Lemma Flask_init_static name :
  Flask_init name (Some "static") (Some "templates")
  = {| import_name := name; static_folder := Some "static";
       template_folder := Some "templates"; url_map := [static_rule];
       view_functions := <["static" := static_view]> ∅;
       debug := false; testing := false; got_first_request := false |}.
Proof. reflexivity. Qed.

(** [create_app] never raises: it allocates one object, at the next free
    position, and leaves the objects already there alone. *)
Lemma create_app_spec name h :
  create_app name h = (Return (length h), h ++ [instance name]).
Proof.
  unfold create_app, mbind, Py_bind, Flask, mret, Py_ret.
  cbv beta iota. unfold route.
  rewrite list_lookup_middle by reflexivity.
  rewrite Flask_init_static. unfold add_url_rule.
  cbn [got_first_request view_functions set_url_map url_map app].
  rewrite lookup_insert_ne by discriminate. rewrite lookup_empty.
  cbv beta iota. f_equal.
  replace (length h) with (length h + 0) by lia.
  rewrite insert_app_r. reflexivity.
Qed.

Lemma reachable_config l h :
  reachable l h ->
  exists a, h !! l = Some a /\ config_of a = config_of (instance "").
Proof.
  induction 1 as [name h0 h Hc | host port dbg srv h h' _ IH Hrun
                 | srv w req resp h h' _ IH Hl Hs].
  - rewrite create_app_spec in Hc. injection Hc as <- <-.
    exists (instance name). split; [|reflexivity].
    apply list_lookup_middle. reflexivity.
  - destruct IH as (a & Ha & Hcfg). unfold run in Hrun. rewrite Ha in Hrun.
    injection Hrun as _ <-.
    eexists. split.
    + apply list_lookup_insert_eq. eapply lookup_lt_Some, Ha.
    + rewrite <- Hcfg. destruct dbg; reflexivity.
  - destruct IH as (a & Ha & Hcfg). unfold serve_request in Hs.
    rewrite Hl, Ha in Hs. injection Hs as _ <-.
    eexists. split.
    + apply list_lookup_insert_eq. eapply lookup_lt_Some, Ha.
    + rewrite <- Hcfg. reflexivity.
Qed.

(** ** Responses *)

(** The object a request is dispatched on, in a reachable store. *)
Lemma serve_request_reachable l h srv w req :
  reachable l h -> srv_app srv = l ->
  exists a, h !! l = Some a /\ config_of a = config_of (instance "") /\
    (serve_request srv w req h).1
    = match wsgi_app (set_got_first_request a) w req with
      | Return r => r
      | Raise e => server_error srv e
      end.
Proof.
  intros Hr Hl. destruct (reachable_config l h Hr) as (a & Ha & Hcfg).
  exists a. split; [exact Ha|]. split; [exact Hcfg|].
  unfold serve_request. rewrite Hl, Ha. reflexivity.
Qed.

Lemma reachable_in_reachable w l h : reachable_in w l h -> reachable l h.
Proof.
  induction 1 as [name h0 h Hc | host port dbg srv h h' _ IH Hrun
                 | srv req resp h h' _ IH Hl Hs].
  - eapply reachable_created, Hc.
  - eapply reachable_run; [exact IH | exact Hrun].
  - eapply reachable_served; [exact IH | exact Hl | exact Hs].
Qed.

(** ** Matching against the two rules *)

(** On an instance, the path ['/'] is matched by the rule of [index] alone;
    the method, then the kind of request, decide between the view, 405 and
    400. *)
Lemma match_root a req :
  config_of a = config_of (instance "") -> path req = "/" ->
  match_request (url_map a) req
  = if bool_decide (method req ∈ [GET; HEAD; OPTIONS])
    then if is_websocket req then Raise WebsocketMismatch
         else Return (index_rule, [])
    else Raise (MethodNotAllowed [GET; HEAD; OPTIONS]).
Proof.
  destruct a. unfold config_of. simpl. intros [= -> -> -> ->] Hp.
  unfold match_request. rewrite Hp.
  cbn [match_rules static_rule index_rule rule methods].
  replace (rule_match "/static/<path:filename>" "/") with (@None view_args)
    by reflexivity.
  replace (rule_match "/" "/") with (Some ([] : view_args)) by reflexivity.
  destruct (bool_decide (method req ∈ [GET; HEAD; OPTIONS]));
    destruct (is_websocket req); reflexivity.
Qed.

(** A path under [/static/] is matched by the static rule alone. *)
Lemma match_static a req f :
  config_of a = config_of (instance "") ->
  path req = "/static/" +:+ f -> path_converter f = true ->
  match_request (url_map a) req
  = if bool_decide (method req ∈ [GET; HEAD; OPTIONS])
    then if is_websocket req then Raise WebsocketMismatch
         else Return (static_rule, [("filename", f)])
    else Raise (MethodNotAllowed [GET; HEAD; OPTIONS]).
Proof.
  destruct a. unfold config_of. simpl. intros [= -> -> -> ->] Hp Hf.
  unfold match_request. rewrite Hp.
  cbn [match_rules static_rule index_rule rule methods].
  rewrite rule_match_static_inside by exact Hf.
  replace (rule_match "/" ("/static/" +:+ f)) with (@None view_args)
    by reflexivity.
  destruct (bool_decide (method req ∈ [GET; HEAD; OPTIONS]));
    destruct (is_websocket req); reflexivity.
Qed.

(** On an instance, GET on ['/'] is dispatched to [index], called without
    arguments, unless the request asks for a WebSocket. *)
Lemma dispatch_root a w req :
  config_of a = config_of (instance "") ->
  method req = GET -> path req = "/" -> is_websocket req = false ->
  dispatch_request a w req = index (request_context a req) [] w.
Proof.
  intros Hcfg Hm Hp Hws. unfold dispatch_request.
  rewrite match_root by assumption. rewrite Hm, Hws.
  rewrite bool_decide_eq_true_2 by set_solver.
  cbn [index_rule provide_automatic_options endpoint andb].
  rewrite bool_decide_eq_false_2 by discriminate.
  injection Hcfg as _ _ _ ->. cbn [view_functions instance].
  rewrite lookup_insert_eq. reflexivity.
Qed.

(** A WebSocket request for ['/'] with a method of the rule is refused
    before any view is looked up. *)
Lemma dispatch_root_websocket a w req :
  config_of a = config_of (instance "") ->
  method req ∈ [GET; HEAD; OPTIONS] -> path req = "/" ->
  is_websocket req = true ->
  dispatch_request a w req = Raise WebsocketMismatch.
Proof.
  intros Hcfg Hm Hp Hws. unfold dispatch_request.
  rewrite match_root by assumption. rewrite Hws.
  rewrite bool_decide_eq_true_2 by exact Hm. reflexivity.
Qed.

(** A path that is neither the root nor under [/static/] matches no rule of
    an instance. *)
Lemma dispatch_unrouted a w req :
  config_of a = config_of (instance "") ->
  path req <> "/" -> (forall f, path req <> "/static/" +:+ f) ->
  dispatch_request a w req = Raise NotFound.
Proof.
  destruct a. unfold config_of. simpl. intros [= -> -> -> ->] Hroot Hstatic.
  unfold dispatch_request, match_request. simpl url_map.
  cbn [match_rules static_rule index_rule rule].
  rewrite rule_match_static_outside by exact Hstatic.
  destruct (rule_match "/" (path req)) as [args|] eqn:E; [|reflexivity].
  apply rule_match_root in E as [E _]. contradiction.
Qed.

Lemma request_context_first a req :
  request_context (set_got_first_request a) req = request_context a req.
Proof. reflexivity. Qed.

Lemma config_of_first a :
  config_of (set_got_first_request a) = config_of a.
Proof. reflexivity. Qed.

Lemma wsgi_app_first a w req :
  wsgi_app (set_got_first_request a) w req = wsgi_app a w req.
Proof. reflexivity. Qed.

(** What the client of a server gets, from the object the server hosts. *)
Lemma serve_request_response srv w req h a :
  h !! srv_app srv = Some a ->
  (serve_request srv w req h).1
  = match wsgi_app a w req with
    | Return r => r
    | Raise e => server_error srv e
    end.
Proof. intros Ha. unfold serve_request. rewrite Ha. reflexivity. Qed.

Lemma server_error_status srv e : status (server_error srv e) = 500.
Proof. unfold server_error. destruct (use_debugger srv); reflexivity. Qed.
(** ** The root page *)

(** C1, as amended.  On an instance built by [create_app], in any state it
    can reach with the files unchanged, every GET request for ['/'] that is
    not a WebSocket upgrade and whose template [index.html] is found and
    renders is answered with status 200, MIME type [text/html] (sent as
    [text/html; charset=utf-8]) and the rendered template as body; the body
    is non-empty exactly when the rendering is. *)
Theorem index_page l h srv w req src html :
  reachable_in w l h -> srv_app srv = l ->
  method req = GET -> path req = "/" -> is_websocket req = false ->
  template_source w "templates" "index.html" = Some src ->
  jinja_render w src {| ctx_request := req; ctx_vars := [] |} = Return html ->
  let r := (serve_request srv w req h).1 in
  status r = 200 /\ mimetype r = "text/html" /\
  content_type r = "text/html; charset=utf-8" /\
  data r = html /\ (data r <> "" <-> html <> "").
Proof.
  intros Hr Hl Hm Hp Hws Hsrc Hrender.
  apply reachable_in_reachable in Hr.
  destruct (serve_request_reachable l h srv w req Hr Hl)
    as (a & _ & Hcfg & ->).
  unfold wsgi_app, full_dispatch_request.
  rewrite dispatch_root by (rewrite ?config_of_first; assumption).
  rewrite request_context_first.
  unfold index, render_template, request_context.
  injection Hcfg as _ -> _ _. cbn [rc_template_folder rc_request].
  rewrite Hsrc, Hrender. unfold for_method.
  rewrite Hm, bool_decide_eq_false_2 by discriminate.
  cbn. repeat split; auto.
Qed.

Lemma index_page_witness :
  let r := (serve_request (dev_server 0) game_world (get "/" "")
              (create_app "__main__" []).2).1 in
  status r = 200 /\ mimetype r = "text/html" /\
  content_type r = "text/html; charset=utf-8" /\
  data r = "<h1>Climb</h1>" /\ (data r <> "" <-> "<h1>Climb</h1>" <> "").
Proof.
  apply (index_page 0 _ (dev_server 0) game_world (get "/" "")
           "<h1>Climb</h1>" "<h1>Climb</h1>").
  - apply (reachable_in_created game_world 0 "__main__" []). reflexivity.
  - reflexivity.
  - reflexivity.
  - reflexivity.
  - reflexivity.
  - reflexivity.
  - reflexivity.
Defined.

(** C1 as stated fails: with an empty [index.html], which is found and
    renders, GET on ['/'] is answered 200 with an empty body. *)
Lemma blank_template_empty_body :
  let w := blank_page_world in
  let req := get "/" "" in
  let r := (serve_request (dev_server 0) w req (create_app "__main__" []).2).1 in
  template_source w "templates" "index.html" = Some "" /\
  jinja_render w "" {| ctx_request := req; ctx_vars := [] |} = Return "" /\
  status r = 200 /\ ~ (data r <> "").
Proof. vm_compute. repeat split; auto. Qed.

(** ** Other paths *)

(** C2, as amended.  On an instance, every request, of any method, whose
    path is in normal form, is not ['/'] and does not lie under [/static/]
    is answered 404: it matches neither rule of the URL map. *)
Theorem unrouted_path_404 l h srv w req :
  reachable l h -> srv_app srv = l ->
  normal_path (path req) = true ->
  path req <> "/" -> (forall f, path req <> "/static/" +:+ f) ->
  status (serve_request srv w req h).1 = 404.
Proof.
  intros Hr Hl _ Hroot Hstatic.
  destruct (serve_request_reachable l h srv w req Hr Hl)
    as (a & _ & Hcfg & ->).
  unfold wsgi_app, full_dispatch_request.
  rewrite dispatch_unrouted by (rewrite ?config_of_first; assumption).
  cbn [handle_user_exception get_response].
  unfold for_method. destruct (bool_decide (method req = HEAD)); reflexivity.
Qed.

Lemma unrouted_path_404_witness :
  status (serve_request (dev_server 0) game_world (get "/nonexistent" "")
            (create_app "__main__" []).2).1 = 404.
Proof.
  apply (unrouted_path_404 0 _ (dev_server 0) game_world
           (get "/nonexistent" "")).
  - apply (reachable_created 0 "__main__" []). reflexivity.
  - reflexivity.
  - reflexivity.
  - discriminate.
  - intros f. discriminate.
Defined.

(** C2 as stated fails: the path [/static/style.css] is not ['/'], and when
    the static folder holds the file the answer is 200 with its contents. *)
Lemma static_file_served :
  let req := get "/static/style.css" "" in
  let r := (serve_request (dev_server 0) game_world req
              (create_app "__main__" []).2).1 in
  path req <> "/" /\ status r = 200 /\ status r <> 404 /\
  mimetype r = "text/css" /\ data r = "body{}".
Proof. vm_compute. repeat split; auto; discriminate. Qed.

(** ** A missing template *)

(** C3, as amended.  When the loader finds no [index.html], and the files
    have not changed since the instance was created, [index] lets
    [TemplateNotFound] escape, the dispatch passes it on unhandled, and every
    GET request for ['/'] that is not a WebSocket upgrade is answered 500:
    by Flask's own handler, or in debug mode by the server once the
    exception has left the application. *)
Theorem missing_template_500 l h srv w req :
  reachable_in w l h -> srv_app srv = l ->
  method req = GET -> path req = "/" -> is_websocket req = false ->
  template_source w "templates" "index.html" = None ->
  (exists a, h !! l = Some a /\
     index (request_context a req) [] w = Raise (TemplateNotFound "index.html") /\
     full_dispatch_request a w req = Raise (TemplateNotFound "index.html")) /\
  status (serve_request srv w req h).1 = 500.
Proof.
  intros Hr Hl Hm Hp Hws Hsrc.
  apply reachable_in_reachable in Hr.
  destruct (serve_request_reachable l h srv w req Hr Hl)
    as (a & Ha & Hcfg & ->).
  assert (Hidx : index (request_context a req) [] w
                 = Raise (TemplateNotFound "index.html")).
  { unfold index, render_template, request_context.
    injection Hcfg as _ -> _ _. cbn [rc_template_folder]. rewrite Hsrc.
    reflexivity. }
  split.
  - exists a. split; [exact Ha|]. split; [exact Hidx|].
    unfold full_dispatch_request. rewrite dispatch_root by assumption.
    rewrite Hidx. reflexivity.
  - unfold wsgi_app, full_dispatch_request.
    rewrite dispatch_root by (rewrite ?config_of_first; assumption).
    rewrite request_context_first, Hidx.
    cbn [handle_user_exception get_response]. unfold handle_exception.
    destruct (testing _ || debug _).
    + apply server_error_status.
    + unfold for_method. rewrite Hm, bool_decide_eq_false_2 by discriminate.
      reflexivity.
Qed.

Lemma missing_template_500_witness :
  status (serve_request (dev_server 0) bare_world (get "/" "")
            (create_app "__main__" []).2).1 = 500.
Proof.
  apply (missing_template_500 0 _ (dev_server 0) bare_world (get "/" "")).
  - apply (reachable_in_created bare_world 0 "__main__" []). reflexivity.
  - reflexivity.
  - reflexivity.
  - reflexivity.
  - reflexivity.
  - reflexivity.
Defined.

(** C3 as stated fails: with no [index.html], a GET request for ['/'] that
    opens a WebSocket handshake is refused with 400 while the rules are
    matched; [index] is not called and nothing is raised. *)
Lemma upgrade_request_gets_400 :
  let req := upgrade_request "/" in
  let h := (create_app "__main__" []).2 in
  let r := (serve_request (dev_server 0) bare_world req h).1 in
  method req = GET /\ path req = "/" /\
  template_source bare_world "templates" "index.html" = None /\
  status r = 400 /\ status r <> 500 /\
  match wsgi_app (instance "__main__") bare_world req with
  | Return r' => status r' = 400
  | Raise _ => False
  end.
Proof. vm_compute. repeat split; auto; discriminate. Qed.

(** ** Construction *)

(** C4.  [create_app] takes no argument (its only input is the module global
    [__name__]) and returns, from any store, a reference to a live object.
    A second call returns a different reference, leaves the first object as
    it was, and the two objects have the same static folder, template
    folder, URL map and view functions. *)
Theorem create_app_twice name h :
  exists l1 h1 l2 h2 a1 a2,
    create_app name h = (Return l1, h1) /\
    create_app name h1 = (Return l2, h2) /\
    h1 !! l1 = Some a1 /\ h2 !! l1 = Some a1 /\ h2 !! l2 = Some a2 /\
    l1 <> l2 /\ config_of a1 = config_of a2.
Proof.
  exists (length h), (h ++ [instance name]),
    (length (h ++ [instance name])),
    ((h ++ [instance name]) ++ [instance name]),
    (instance name), (instance name).
  rewrite !create_app_spec.
  repeat split.
  - apply list_lookup_middle. reflexivity.
  - rewrite lookup_app_l by (rewrite length_app; simpl; lia).
    apply list_lookup_middle. reflexivity.
  - apply list_lookup_middle. reflexivity.
  - rewrite length_app. simpl. lia.
Qed.

(** C5 as stated fails: the URL map of a new instance holds two rules, not
    one. *)
Lemma url_map_has_two_rules :
  (fun a => length (url_map a)) <$> ((create_app "__main__" []).2 !! 0)
  = Some 2.
Proof. reflexivity. Qed.

(** C5, as amended.  [create_app] itself registers exactly one rule, which
    maps ['/'] to [index]; it is appended to the URL map the constructor
    leaves, which already holds the rule ['/static/<path:filename>'] of the
    static folder, so that the instance has exactly these two rules. *)
Theorem create_app_routes name h :
  exists l h' a,
    create_app name h = (Return l, h') /\ h' !! l = Some a /\
    url_map (Flask_init name (Some "static") (Some "templates"))
      = [static_rule] /\
    url_map a
      = url_map (Flask_init name (Some "static") (Some "templates"))
        ++ [index_rule] /\
    length (url_map a) = 2 /\
    rule index_rule = "/" /\
    view_functions a !! endpoint index_rule = Some index.
Proof.
  exists (length h), (h ++ [instance name]), (instance name).
  rewrite create_app_spec.
  split; [reflexivity|].
  split; [apply list_lookup_middle; reflexivity|].
  do 4 (split; [reflexivity|]). reflexivity.
Qed.

(** C6.  The instance's static folder is ['static'] and its template folder
    is ['templates']. *)
Theorem create_app_folders name h :
  exists l h' a,
    create_app name h = (Return l, h') /\ h' !! l = Some a /\
    static_folder a = Some "static" /\ template_folder a = Some "templates".
Proof.
  exists (length h), (h ++ [instance name]), (instance name).
  rewrite create_app_spec. repeat split.
  apply list_lookup_middle. reflexivity.
Qed.

(** ** The entry point *)

(** C7.  Run as the entry point, the module calls [create_app] and starts
    the instance it returns on host [0.0.0.0], port 5000, with the debug
    flag set on the application and the debugger and reloader switched on. *)
Theorem main_as_entry_point h :
  exists l h1 srv h2,
    create_app "__main__" h = (Return l, h1) /\
    run l (Some "0.0.0.0") (Some 5000) (Some true) h1 = (Return srv, h2) /\
    main "__main__" h = (Return (Some srv), h2) /\
    srv_app srv = l /\ srv_host srv = "0.0.0.0" /\ srv_port srv = 5000 /\
    use_debugger srv = true /\ use_reloader srv = true /\
    debug <$> h2 !! l = Some true.
Proof.
  exists (length h), (h ++ [instance "__main__"]). do 2 eexists.
  unfold main. rewrite decide_True by reflexivity.
  unfold mbind, Py_bind, mret, Py_ret. rewrite create_app_spec.
  unfold run. rewrite list_lookup_middle by reflexivity.
  do 8 (split; [reflexivity|]).
  rewrite list_lookup_insert_eq by (rewrite length_app; simpl; lia).
  reflexivity.
Qed.

(** C10.  Imported under any other name, the module body calls neither
    [create_app] nor [run]: it returns without a server and leaves the store
    as it found it. *)
Theorem main_on_import name h :
  name <> "__main__" -> main name h = (Return None, h).
Proof. intros Hn. unfold main. rewrite decide_False by exact Hn. reflexivity. Qed.

Lemma main_on_import_witness :
  main "flask_app.app" [] = (Return None, []).
Proof. apply (main_on_import "flask_app.app" []). discriminate. Defined.

(** ** The configuration over a session *)

(** Serving a request touches no object's configuration or debug flag, and
    the server keeps its start parameters. *)
Lemma step_frame w p req l :
  proc_server (step w p req).2 = proc_server p /\
  config_of <$> proc_heap (step w p req).2 !! l
    = config_of <$> proc_heap p !! l /\
  debug <$> proc_heap (step w p req).2 !! l = debug <$> proc_heap p !! l.
Proof.
  unfold step, serve_request.
  destruct (proc_heap p !! srv_app (proc_server p)) as [a|] eqn:Ha;
    cbn [snd proc_server proc_heap]; [|auto].
  split; [reflexivity|].
  destruct (decide (srv_app (proc_server p) = l)) as [<-|Hne].
  - rewrite list_lookup_insert_eq by (eapply lookup_lt_Some, Ha).
    rewrite Ha. auto.
  - rewrite list_lookup_insert_ne by exact Hne. auto.
Qed.

Lemma serve_frame w reqs p l :
  proc_server (serve w p reqs).2 = proc_server p /\
  config_of <$> proc_heap (serve w p reqs).2 !! l
    = config_of <$> proc_heap p !! l /\
  debug <$> proc_heap (serve w p reqs).2 !! l = debug <$> proc_heap p !! l.
Proof.
  revert p. induction reqs as [|req reqs IH]; intros p; [auto|].
  cbn [serve].
  destruct (step w p req) as [r p1] eqn:E1.
  destruct (serve w p1 reqs) as [rs p2] eqn:E2.
  cbn [snd].
  specialize (IH p1). rewrite E2 in IH. cbn [snd] in IH.
  pose proof (step_frame w p req l) as Hs. rewrite E1 in Hs. cbn [snd] in Hs.
  destruct IH as (-> & -> & ->), Hs as (-> & -> & ->). auto.
Qed.

(** C8.  Whatever sequence of requests the process serves, the server keeps
    its host, port and debugger settings, and the instance keeps the static
    folder, template folder, URL map and view functions that [create_app]
    gave it, as well as its debug flag. *)
Theorem serving_keeps_configuration l w p reqs :
  reachable l (proc_heap p) ->
  let p' := (serve w p reqs).2 in
  proc_server p' = proc_server p /\
  config_of <$> proc_heap p' !! l = config_of <$> proc_heap p !! l /\
  config_of <$> proc_heap p' !! l = Some (config_of (instance "")) /\
  debug <$> proc_heap p' !! l = debug <$> proc_heap p !! l.
Proof.
  intros Hr p'. subst p'.
  destruct (serve_frame w reqs p l) as (Hs & Hc & Hd).
  destruct (reachable_config _ _ Hr) as (a & Ha & Hcfg).
  repeat split; try assumption.
  rewrite Hc, Ha. cbn. rewrite Hcfg. reflexivity.
Qed.

Lemma serving_keeps_configuration_witness :
  let p := {| proc_server := dev_server 0;
              proc_heap := (main "__main__" []).2 |} in
  let p' := (serve game_world p
               [get "/" ""; get "/static/style.css" ""; get "/nope" ""]).2 in
  proc_server p' = proc_server p /\
  config_of <$> proc_heap p' !! 0 = config_of <$> proc_heap p !! 0 /\
  config_of <$> proc_heap p' !! 0 = Some (config_of (instance "")) /\
  debug <$> proc_heap p' !! 0 = debug <$> proc_heap p !! 0.
Proof.
  apply (serving_keeps_configuration 0 game_world
           {| proc_server := dev_server 0;
              proc_heap := (main "__main__" []).2 |}).
  apply (reachable_run 0 (Some "0.0.0.0") (Some 5000) (Some true)
           (dev_server 0) (create_app "__main__" []).2).
  - apply (reachable_created 0 "__main__" []). reflexivity.
  - reflexivity.
Defined.

(** ** The request and the page *)

(** C9, as amended.  [index] reads nothing from the request and hands the
    template no variables; the request reaches the page only through the
    template context, where the framework puts it, and through the URL map,
    which refuses a WebSocket upgrade.  With the files unchanged, two GET
    requests for ['/'] that are both WebSocket upgrades or both not, and on
    which the template renders alike, get the same response, and leave the
    same store, whatever else their headers, their query strings and their
    bodies hold. *)
Theorem index_same_rendering_same_response l h srv w r1 r2 :
  reachable_in w l h -> srv_app srv = l ->
  method r1 = GET -> path r1 = "/" -> method r2 = GET -> path r2 = "/" ->
  is_websocket r1 = is_websocket r2 ->
  (forall src,
     template_source w "templates" "index.html" = Some src ->
     jinja_render w src {| ctx_request := r1; ctx_vars := [] |}
     = jinja_render w src {| ctx_request := r2; ctx_vars := [] |}) ->
  serve_request srv w r1 h = serve_request srv w r2 h.
Proof.
  intros Hr Hl Hm1 Hp1 Hm2 Hp2 Hws Hrender.
  apply reachable_in_reachable in Hr.
  destruct (reachable_config _ _ Hr) as (a & Ha & Hcfg).
  unfold serve_request. rewrite Hl, Ha. f_equal.
  unfold wsgi_app, full_dispatch_request.
  destruct (is_websocket r2) eqn:Hws2.
  - rewrite !dispatch_root_websocket
      by (rewrite ?config_of_first, ?Hm1, ?Hm2; (assumption || set_solver)).
    unfold for_method. rewrite Hm1, Hm2. reflexivity.
  - rewrite !dispatch_root by (rewrite ?config_of_first; assumption).
    rewrite !request_context_first.
    unfold index, render_template, request_context, for_method.
    rewrite Hm1, Hm2.
    injection Hcfg as _ -> _ _. cbn [rc_template_folder rc_request].
    destruct (template_source w "templates" "index.html") as [src|] eqn:Hsrc;
      [|reflexivity].
    rewrite (Hrender src eq_refl). reflexivity.
Qed.

Lemma index_same_rendering_same_response_witness :
  serve_request (dev_server 0) game_world
    {| method := GET; path := "/"; query_string := "level=2";
       headers := [("Cookie", "player=ann")]; body := "" |}
    (create_app "__main__" []).2
  = serve_request (dev_server 0) game_world (get "/" "")
      (create_app "__main__" []).2.
Proof.
  apply (index_same_rendering_same_response 0).
  - apply (reachable_in_created game_world 0 "__main__" []). reflexivity.
  - reflexivity.
  - reflexivity.
  - reflexivity.
  - reflexivity.
  - reflexivity.
  - reflexivity.
  - intros src [= <-]. reflexivity.
Defined.

(** C9 as stated fails: with an [index.html] that shows the requested URL,
    two GET requests for ['/'] that differ in their query string get
    different pages from the same template file. *)
Lemma echo_template_shows_query :
  let h := (create_app "__main__" []).2 in
  let r1 := (serve_request (dev_server 0) echo_world (get "/" "a=1") h).1 in
  let r2 := (serve_request (dev_server 0) echo_world (get "/" "a=2") h).1 in
  data r1 = "/?a=1" /\ data r2 = "/?a=2" /\ r1 <> r2.
Proof. vm_compute. repeat split; discriminate. Qed.

(** * Further properties of the module *)

(** ** Methods on the root path *)

(** X1.  The route of [index] is registered without a [methods] option, so
    a request for ['/'] with any method other than GET, HEAD and OPTIONS is
    answered 405; the view is not called, so the answer owes nothing to the
    template or to any file. *)
Theorem root_other_methods_405 l h srv w req :
  reachable l h -> srv_app srv = l -> path req = "/" ->
  method req <> GET -> method req <> HEAD -> method req <> OPTIONS ->
  status (serve_request srv w req h).1 = 405 /\
  forall w', serve_request srv w' req h = serve_request srv w req h.
Proof.
  intros Hr Hl Hp Hg Hh Ho.
  destruct (reachable_config _ _ Hr) as (a & Ha & Hcfg).
  assert (Hd : forall w0, dispatch_request (set_got_first_request a) w0 req
                 = Raise (MethodNotAllowed [GET; HEAD; OPTIONS])).
  { intros w0. unfold dispatch_request.
    rewrite match_root by (rewrite ?config_of_first; assumption).
    rewrite bool_decide_eq_false_2; [reflexivity|].
    rewrite !elem_of_cons, elem_of_nil. intros [?|[?|[?|[]]]]; congruence. }
  assert (Hs : forall w0, serve_request srv w0 req h
                 = (for_method req (method_not_allowed [GET; HEAD; OPTIONS]),
                    <[l := set_got_first_request a]> h)).
  { intros w0. unfold serve_request. rewrite Hl, Ha.
    unfold wsgi_app, full_dispatch_request. rewrite Hd. reflexivity. }
  split.
  - rewrite Hs. unfold for_method.
    destruct (bool_decide (method req = HEAD)); reflexivity.
  - intros w'. rewrite !Hs. reflexivity.
Qed.

Lemma root_other_methods_405_witness :
  let req := {| method := POST; path := "/"; query_string := "";
                headers := []; body := "name=ann" |} in
  let h := (create_app "__main__" []).2 in
  status (serve_request (dev_server 0) game_world req h).1 = 405 /\
  forall w', serve_request (dev_server 0) w' req h
             = serve_request (dev_server 0) game_world req h.
Proof.
  apply (root_other_methods_405 0); try discriminate; try reflexivity.
  apply (reachable_created 0 "__main__" []). reflexivity.
Defined.

(** X2.  HEAD on ['/'] runs [index] like GET does: with the files unchanged
    and the template found and rendering, a HEAD request that is not a
    WebSocket upgrade is answered 200 [text/html], sent without the body. *)
Theorem root_head_no_body l h srv w req src html :
  reachable_in w l h -> srv_app srv = l ->
  method req = HEAD -> path req = "/" -> is_websocket req = false ->
  template_source w "templates" "index.html" = Some src ->
  jinja_render w src {| ctx_request := req; ctx_vars := [] |} = Return html ->
  let r := (serve_request srv w req h).1 in
  status r = 200 /\ mimetype r = "text/html" /\ data r = "".
Proof.
  intros Hr Hl Hm Hp Hws Hsrc Hrender.
  apply reachable_in_reachable in Hr.
  destruct (reachable_config _ _ Hr) as (a & Ha & Hcfg). subst l.
  cbv zeta. rewrite (serve_request_response _ _ _ _ _ Ha).
  unfold wsgi_app, full_dispatch_request, dispatch_request.
  rewrite match_root by assumption. rewrite Hm, Hws.
  rewrite bool_decide_eq_true_2 by set_solver.
  cbn [index_rule provide_automatic_options endpoint andb].
  rewrite bool_decide_eq_false_2 by discriminate.
  injection Hcfg as _ Ht _ Hv. rewrite Hv.
  cbn [view_functions instance]. rewrite lookup_insert_eq.
  unfold index, render_template, request_context.
  cbn [rc_template_folder rc_request]. rewrite Ht.
  cbn [template_folder instance].
  rewrite Hsrc, Hrender. unfold for_method, make_response.
  rewrite Hm. repeat split.
Qed.

Lemma root_head_no_body_witness :
  let r := (serve_request (dev_server 0) game_world
              {| method := HEAD; path := "/"; query_string := "";
                 headers := []; body := "" |}
              (create_app "__main__" []).2).1 in
  status r = 200 /\ mimetype r = "text/html" /\ data r = "".
Proof.
  apply (root_head_no_body 0 _ _ game_world _ "<h1>Climb</h1>"
           "<h1>Climb</h1>"); try reflexivity.
  apply (reachable_in_created game_world 0 "__main__" []). reflexivity.
Defined.

(** X3.  OPTIONS on ['/'], unless it is a WebSocket upgrade, is answered by
    the framework, 200 with an empty body, without calling [index]: the
    answer is the same in every world, also when the template is missing. *)
Theorem root_options_without_view l h srv w req :
  reachable l h -> srv_app srv = l ->
  method req = OPTIONS -> path req = "/" -> is_websocket req = false ->
  status (serve_request srv w req h).1 = 200 /\
  data (serve_request srv w req h).1 = "" /\
  forall w', serve_request srv w' req h = serve_request srv w req h.
Proof.
  intros Hr Hl Hm Hp Hws.
  destruct (reachable_config _ _ Hr) as (a & Ha & Hcfg).
  assert (Hd : forall w0, dispatch_request (set_got_first_request a) w0 req
                 = Return (RvResponse (make_default_options_response
                                         (set_got_first_request a) req))).
  { intros w0. unfold dispatch_request.
    rewrite match_root by (rewrite ?config_of_first; assumption).
    rewrite Hm, Hws. rewrite bool_decide_eq_true_2 by set_solver.
    cbn [index_rule provide_automatic_options].
    rewrite bool_decide_eq_true_2 by reflexivity. reflexivity. }
  assert (Hs : forall w0, serve_request srv w0 req h
                 = (make_default_options_response
                      (set_got_first_request a) req,
                    <[l := set_got_first_request a]> h)).
  { intros w0. unfold serve_request. rewrite Hl, Ha.
    unfold wsgi_app, full_dispatch_request. rewrite Hd.
    unfold for_method. rewrite Hm.
    rewrite bool_decide_eq_false_2 by discriminate. reflexivity. }
  rewrite Hs. repeat split. intros w'. rewrite Hs. reflexivity.
Qed.

Lemma root_options_without_view_witness :
  let req := {| method := OPTIONS; path := "/"; query_string := "";
                headers := []; body := "" |} in
  let h := (create_app "__main__" []).2 in
  status (serve_request (dev_server 0) bare_world req h).1 = 200 /\
  data (serve_request (dev_server 0) bare_world req h).1 = "" /\
  forall w', serve_request (dev_server 0) w' req h
             = serve_request (dev_server 0) bare_world req h.
Proof.
  apply (root_options_without_view 0); try reflexivity.
  apply (reachable_created 0 "__main__" []). reflexivity.
Defined.

(** ** Errors while rendering *)

(** X4.  [index] has no handler of its own: with the files unchanged,
    whatever exception the template engine raises while rendering
    [index.html], other than an HTTP exception, leaves the view, and a GET
    request for ['/'] that is not a WebSocket upgrade is answered 500. *)
Theorem render_error_500 l h srv w req src e :
  reachable_in w l h -> srv_app srv = l ->
  method req = GET -> path req = "/" -> is_websocket req = false ->
  template_source w "templates" "index.html" = Some src ->
  jinja_render w src {| ctx_request := req; ctx_vars := [] |} = Raise e ->
  get_response e = None ->
  (exists a, h !! l = Some a /\ index (request_context a req) [] w = Raise e)
  /\ status (serve_request srv w req h).1 = 500.
Proof.
  intros Hr Hl Hm Hp Hws Hsrc Hrender He.
  apply reachable_in_reachable in Hr.
  destruct (reachable_config _ _ Hr) as (a & Ha & Hcfg). subst l.
  assert (Hidx : index (request_context a req) [] w = Raise e).
  { unfold index, render_template, request_context.
    injection Hcfg as _ -> _ _. cbn [rc_template_folder rc_request].
    rewrite Hsrc, Hrender. reflexivity. }
  split; [exists a; auto|].
  rewrite (serve_request_response _ _ _ _ _ Ha).
  unfold wsgi_app, full_dispatch_request.
  rewrite dispatch_root by assumption. rewrite Hidx.
  unfold handle_user_exception. rewrite He. unfold handle_exception.
  destruct (testing a || debug a); [apply server_error_status|].
  unfold for_method. rewrite Hm, bool_decide_eq_false_2 by discriminate.
  reflexivity.
Qed.

Lemma render_error_500_witness :
  status (serve_request (dev_server 0) broken_page_world (get "/" "")
            (create_app "__main__" []).2).1 = 500.
Proof.
  apply (render_error_500 0 _ _ broken_page_world (get "/" "") "{% if %}"
           (TemplateError "Expected an expression, got 'end of statement block'"));
    try reflexivity.
  apply (reachable_in_created broken_page_world 0 "__main__" []). reflexivity.
Defined.

(** ** The static folder *)

(** X5.  GET on [/static/NAME] looks NAME up in the folder ['static'] that
    [create_app] configured: when the file is there, a request that carries
    no conditional or range header and is not a WebSocket upgrade gets it
    back, 200 with the file's MIME type and contents. *)
Theorem static_file_found l h srv w req f file :
  reachable l h -> srv_app srv = l ->
  method req = GET -> is_conditional req = false ->
  is_websocket req = false ->
  path req = "/static/" +:+ f -> path_converter f = true ->
  static_file w "static" f = Some file ->
  let r := (serve_request srv w req h).1 in
  status r = 200 /\ mimetype r = file_mimetype file /\
  data r = file_data file.
Proof.
  intros Hr Hl Hm _ Hws Hp Hf Hfile.
  destruct (reachable_config _ _ Hr) as (a & Ha & Hcfg). subst l.
  cbv zeta. rewrite (serve_request_response _ _ _ _ _ Ha).
  unfold wsgi_app, full_dispatch_request, dispatch_request.
  rewrite (match_static a req f) by assumption. rewrite Hm, Hws.
  rewrite bool_decide_eq_true_2 by set_solver.
  cbn [static_rule provide_automatic_options endpoint andb].
  rewrite bool_decide_eq_false_2 by discriminate.
  injection Hcfg as Hs _ _ Hv. rewrite Hv.
  cbn [view_functions instance].
  rewrite lookup_insert_ne by discriminate. rewrite lookup_insert_eq.
  unfold static_view, send_static_file, request_context.
  rewrite decide_True by reflexivity.
  cbn [rc_static_folder]. rewrite Hs. cbn [static_folder instance].
  rewrite Hfile. unfold for_method, make_response.
  rewrite Hm, bool_decide_eq_false_2 by discriminate. repeat split.
Qed.

Lemma static_file_found_witness :
  let r := (serve_request (dev_server 0) game_world
              {| method := GET; path := "/static/style.css";
                 query_string := "";
                 headers := [("Host", "localhost:5000");
                             ("Accept", "text/css"); ("Connection", "keep-alive")];
                 body := "" |}
              (create_app "__main__" []).2).1 in
  status r = 200 /\ mimetype r = "text/css" /\ data r = "body{}".
Proof.
  apply (static_file_found 0 _ _ game_world _ "style.css"
           {| file_mimetype := "text/css"; file_data := "body{}" |});
    try reflexivity.
  apply (reachable_created 0 "__main__" []). reflexivity.
Defined.

(** X6.  When the folder ['static'] has no such file, GET and HEAD on
    [/static/NAME], other than WebSocket upgrades, are answered 404, in
    debug mode too. *)
Theorem static_file_missing_404 l h srv w req f :
  reachable l h -> srv_app srv = l ->
  method req = GET \/ method req = HEAD -> is_websocket req = false ->
  path req = "/static/" +:+ f -> path_converter f = true ->
  static_file w "static" f = None ->
  status (serve_request srv w req h).1 = 404.
Proof.
  intros Hr Hl Hm Hws Hp Hf Hfile.
  destruct (reachable_config _ _ Hr) as (a & Ha & Hcfg). subst l.
  rewrite (serve_request_response _ _ _ _ _ Ha).
  unfold wsgi_app, full_dispatch_request, dispatch_request.
  rewrite (match_static a req f) by assumption. rewrite Hws.
  rewrite bool_decide_eq_true_2 by (destruct Hm as [-> | ->]; set_solver).
  cbn [static_rule provide_automatic_options endpoint andb].
  rewrite (bool_decide_eq_false_2 (method req = OPTIONS))
    by (destruct Hm as [-> | ->]; discriminate).
  injection Hcfg as Hs _ _ Hv. rewrite Hv.
  cbn [view_functions instance].
  rewrite lookup_insert_ne by discriminate. rewrite lookup_insert_eq.
  unfold static_view, send_static_file, request_context.
  rewrite decide_True by reflexivity.
  cbn [rc_static_folder]. rewrite Hs. cbn [static_folder instance].
  rewrite Hfile. cbn [handle_user_exception get_response].
  unfold for_method. destruct (bool_decide (method req = HEAD)); reflexivity.
Qed.

Lemma static_file_missing_404_witness :
  status (serve_request (dev_server 0) game_world (get "/static/nope.css" "")
            (create_app "__main__" []).2).1 = 404.
Proof.
  apply (static_file_missing_404 0 _ _ game_world (get "/static/nope.css" "")
           "nope.css"); try reflexivity.
  - apply (reachable_created 0 "__main__" []). reflexivity.
  - left. reflexivity.
Defined.

(** ** What the root page is made from *)

(** X8.  [index] asks for the one template ['index.html'] in the folder
    ['templates'] and for nothing else: two worlds that agree on that
    template and on what it renders to give the same answer to a GET for
    ['/'], whatever static files and other loader entries they hold. *)
Theorem index_reads_only_its_template l h srv w1 w2 req :
  reachable l h -> srv_app srv = l ->
  method req = GET -> path req = "/" ->
  template_source w1 "templates" "index.html"
    = template_source w2 "templates" "index.html" ->
  (forall src,
     template_source w1 "templates" "index.html" = Some src ->
     jinja_render w1 src {| ctx_request := req; ctx_vars := [] |}
     = jinja_render w2 src {| ctx_request := req; ctx_vars := [] |}) ->
  serve_request srv w1 req h = serve_request srv w2 req h.
Proof.
  intros Hr Hl Hm Hp Hsrc Hrender.
  destruct (reachable_config _ _ Hr) as (a & Ha & Hcfg).
  unfold serve_request. rewrite Hl, Ha. f_equal.
  unfold wsgi_app, full_dispatch_request.
  destruct (is_websocket req) eqn:Hws.
  - rewrite !dispatch_root_websocket
      by (rewrite ?config_of_first, ?Hm; (assumption || set_solver)).
    reflexivity.
  - rewrite !dispatch_root by (rewrite ?config_of_first; assumption).
    rewrite !request_context_first.
    unfold index, render_template, request_context.
    injection Hcfg as _ -> _ _. cbn [rc_template_folder rc_request].
    rewrite <- Hsrc.
    destruct (template_source w1 "templates" "index.html") as [src|] eqn:E;
      [|reflexivity].
    rewrite (Hrender src eq_refl). reflexivity.
Qed.

Lemma index_reads_only_its_template_witness :
  serve_request (dev_server 0) game_world (get "/" "")
    (create_app "__main__" []).2
  = serve_request (dev_server 0)
      {| template_source := template_source game_world;
         jinja_render := jinja_render game_world;
         static_file := fun _ _ => None |}
      (get "/" "") (create_app "__main__" []).2.
Proof.
  apply (index_reads_only_its_template 0); try reflexivity.
  apply (reachable_created 0 "__main__" []). reflexivity.
Defined.

(** ** Debug mode and the error page *)

(** What the entry point leaves behind: the server, and the new instance
    with its debug flag set. *)
Lemma main_start h :
  main "__main__" h
  = (Return (Some {| srv_app := length h; srv_host := "0.0.0.0";
                     srv_port := 5000; use_reloader := true;
                     use_debugger := true; threaded := true |}),
     <[length h := set_debug true (instance "__main__")]>
       (h ++ [instance "__main__"])).
Proof.
  unfold main. rewrite decide_True by reflexivity.
  unfold mbind, Py_bind, mret, Py_ret. rewrite create_app_spec.
  unfold run. rewrite list_lookup_middle by reflexivity. reflexivity.
Qed.




(** X10.  An instance taken from [create_app] and served without going
    through the entry point is not in debug mode (the environment setting
    no [FLASK_DEBUG]): for the same missing template and a GET request for
    ['/'] that is not a WebSocket upgrade, the application itself returns a
    response, with status 500, and no exception reaches the server. *)
Theorem factory_instance_answers_500_itself name h0 l h w req :
  create_app name h0 = (Return l, h) ->
  method req = GET -> path req = "/" -> is_websocket req = false ->
  template_source w "templates" "index.html" = None ->
  exists a r,
    h !! l = Some a /\ debug a = false /\
    wsgi_app a w req = Return r /\ status r = 500 /\
    mimetype r = "text/html".
Proof.
  intros Hc Hm Hp Hws Hsrc. rewrite create_app_spec in Hc.
  injection Hc as <- <-.
  exists (instance name), internal_server_error.
  split; [apply list_lookup_middle; reflexivity|].
  split; [reflexivity|].
  split; [|split; reflexivity].
  unfold wsgi_app, full_dispatch_request.
  rewrite dispatch_root by (reflexivity || assumption).
  unfold index, render_template, request_context.
  cbn [rc_template_folder template_folder instance]. rewrite Hsrc.
  cbn [handle_user_exception get_response handle_exception testing debug
       instance orb].
  unfold for_method. rewrite Hm, bool_decide_eq_false_2 by discriminate.
  reflexivity.
Qed.

Lemma factory_instance_answers_500_itself_witness :
  exists a r,
    (create_app "wsgi" []).2 !! 0 = Some a /\ debug a = false /\
    wsgi_app a bare_world (get "/" "") = Return r /\ status r = 500 /\
    mimetype r = "text/html".
Proof.
  apply (factory_instance_answers_500_itself "wsgi" [] 0 _ bare_world
           (get "/" "")); reflexivity.
Defined.

(** ** Instances side by side *)

(** A session changes only the object the server hosts. *)
Lemma serve_others w reqs p l :
  l <> srv_app (proc_server p) ->
  proc_heap (serve w p reqs).2 !! l = proc_heap p !! l.
Proof.
  revert p. induction reqs as [|req reqs IH]; intros p Hne; [reflexivity|].
  cbn [serve].
  destruct (step w p req) as [r p1] eqn:E1.
  destruct (serve w p1 reqs) as [rs p2] eqn:E2. cbn [snd].
  assert (Hp1 : p1 = (step w p req).2) by (rewrite E1; reflexivity).
  specialize (IH p1). rewrite E2 in IH. cbn [snd] in IH.
  rewrite IH.
  - rewrite Hp1. unfold step, serve_request.
    destruct (proc_heap p !! srv_app (proc_server p)); cbn [snd proc_heap];
      [|reflexivity].
    apply list_lookup_insert_ne. congruence.
  - rewrite Hp1. destruct (step_frame w p req l) as (-> & _). exact Hne.
Qed.

(** X11.  Instances do not share state.  An instance built earlier by
    [create_app] stays exactly as it was built (debug off, no request
    noted) while the entry point builds a second instance, turns debug on
    for it and serves any session on it. *)
Theorem earlier_instance_untouched name h l1 h1 srv h2 w reqs :
  create_app name h = (Return l1, h1) ->
  main "__main__" h1 = (Return (Some srv), h2) ->
  let p := {| proc_server := srv; proc_heap := h2 |} in
  srv_app srv <> l1 /\
  h1 !! l1 = Some (instance name) /\
  proc_heap (serve w p reqs).2 !! l1 = Some (instance name).
Proof.
  intros Hc Hmain p. subst p.
  rewrite create_app_spec in Hc. injection Hc as <- <-.
  rewrite main_start in Hmain. injection Hmain as <- <-.
  cbn [srv_app]. rewrite length_app. cbn [length].
  split; [lia|].
  split; [apply list_lookup_middle; reflexivity|].
  rewrite serve_others by (cbn [proc_server srv_app]; lia).
  cbn [proc_heap].
  rewrite list_lookup_insert_ne by lia.
  rewrite lookup_app_l by (rewrite length_app; cbn [length]; lia).
  apply list_lookup_middle. reflexivity.
Qed.

Lemma earlier_instance_untouched_witness :
  let h1 := (create_app "wsgi" []).2 in
  let p := {| proc_server := dev_server 1;
              proc_heap := (main "__main__" h1).2 |} in
  srv_app (dev_server 1) <> 0 /\
  h1 !! 0 = Some (instance "wsgi") /\
  proc_heap (serve bare_world p [get "/" ""; get "/x" ""]).2 !! 0
  = Some (instance "wsgi").
Proof.
  apply (earlier_instance_untouched "wsgi" [] 0 (create_app "wsgi" []).2
           (dev_server 1) (main "__main__" (create_app "wsgi" []).2).2);
    reflexivity.
Defined.

(** ** The two rules *)

(** X12.  The rule of [index] and the static rule never compete: whatever
    the path, at most one rule of an instance matches it, so the order in
    which the constructor and [create_app] register them has no bearing on
    which view answers. *)
Theorem at_most_one_rule_matches l h a p :
  reachable l h -> h !! l = Some a ->
  length (filter (fun r => is_Some (rule_match (rule r) p)) (url_map a)) <= 1.
Proof.
  intros Hr Ha.
  destruct (reachable_config _ _ Hr) as (a' & Ha' & Hcfg).
  rewrite Ha in Ha'. injection Ha' as <-.
  injection Hcfg as _ _ -> _. cbn [url_map instance].
  rewrite !filter_cons, filter_nil.
  destruct (decide (is_Some (rule_match (rule index_rule) p)))
    as [[args Hi]|Hi].
  - apply rule_match_root in Hi as [-> _].
    rewrite decide_False; [cbn; lia|].
    intros [args' Hs]. discriminate Hs.
  - destruct (decide (is_Some (rule_match (rule static_rule) p)));
      cbn; lia.
Qed.

Lemma at_most_one_rule_matches_witness :
  length (filter (fun r => is_Some (rule_match (rule r) "/static/style.css"))
            (url_map (instance "__main__"))) <= 1.
Proof.
  apply (at_most_one_rule_matches 0 (create_app "__main__" []).2
           (instance "__main__") "/static/style.css").
  - apply (reachable_created 0 "__main__" []). reflexivity.
  - reflexivity.
Defined.
